(** * heat_pump_thermo: the Carnot COP model and the synthetic COP generator

    A shallow embedding of the two numeric models of the repository,
    [carnot_cop.py] and [cop_data.py], and the properties of their
    specification.

    Numbers.  Python floats and numpy float64 values are idealised as
    exact rationals ([Q]); what IEEE arithmetic adds to the finite
    values, the infinities of a division by zero and the not-a-number
    marker, is kept as the separate constructors of [npfloat].  Rounding
    is not modelled; the concrete cases of the specification are run once
    more on binary64 floats ([binary64]), and [binary64_rounding_effects]
    shows what rounding changes.  The general statements say what holds of
    the rounded results as well: which branch is taken by comparisons of
    the values the code itself computes, and inequalities that are not
    strict.

    Errors.  A Python exception is a [Raise] in the [result] type;
    [cop_data_state] also keeps the generator state a raising call leaves.

    Arrays.  A numpy array is its shape and its flat data buffer; the
    one-dimensional arrays of [cop_data.py] are lists.

    numpy.  [np.polyfit] and the generator behind [np.random] are not code
    of the repository: they are the operations of the class [Numpy], with
    the part of their documented behaviour that is used as [NumpyLaws].
    [lcg_numpy] is an instance that computes. *)

From Stdlib Require Import QArith Qminmax Lqa ZArith List Bool Lia.
From Stdlib Require Floats.PrimFloat.
Import ListNotations.
Open Scope Q_scope.

(** ** Python values, exceptions, numpy arrays *)

Inductive exn : Type :=
| ZeroDivisionError
| ValueError
| TypeError.

Inductive result (A : Type) : Type :=
| Ok (a : A)
| Raise (e : exn).
Arguments Ok {A} a.
Arguments Raise {A} e.

(** A float64 as numpy sees it: a finite value, an infinity, or nan. *)
Inductive npfloat : Type :=
| Fin (q : Q)
| PInf
| NInf
| NaN.

Record ndarray (A : Type) : Type := mk_ndarray {
  nd_shape : list nat;
  nd_data : list A
}.
Arguments mk_ndarray {A} nd_shape nd_data.
Arguments nd_shape {A} n.
Arguments nd_data {A} n.

(** The arguments the two functions of [carnot_cop.py] are called with:
    a Python number, or a numpy array of finite values (of any shape). *)
Inductive pyval : Type :=
| PyFloat (x : Q)
| NdArray (a : ndarray Q).

(** An elementwise operation keeps the shape and maps the buffer. *)
Definition nd_map {A B : Type} (f : A -> B) (a : ndarray A) : ndarray B :=
  mk_ndarray (nd_shape a) (map f (nd_data a)).

(** A one-dimensional array (a sequence) and a zero-dimensional one. *)
Definition nd_1d {A : Type} (l : list A) : ndarray A :=
  mk_ndarray [length l] l.

Definition nd_0d {A : Type} (x : A) : ndarray A :=
  mk_ndarray [] [x].

(** [x / y] on Python floats: a zero divisor raises. *)
Definition py_truediv (x y : Q) : result Q :=
  if Qeq_bool y 0 then Raise ZeroDivisionError else Ok (x / y).

(** [x / y] on float64 inside numpy: a zero divisor gives an infinity
    of the sign of [x], or nan for 0/0 (with a warning, no exception). *)
Definition np_true_divide (x y : Q) : npfloat :=
  if Qeq_bool y 0 then
    (if Qlt_le_dec 0 x then PInf
     else if Qlt_le_dec x 0 then NInf
     else NaN)
  else Fin (x / y).

Fixpoint where_data {A : Type} (c : list bool) (x : A) (y : list A) : list A :=
  match c, y with
  | b :: c', v :: y' => (if b then x else v) :: where_data c' x y'
  | _, _ => []
  end.

(** [np.where(cond, x, y)] for an array [cond], a scalar [x] and an array
    [y] of the shape of [cond].  (Broadcasting between arrays of different
    shapes is not modelled: it is a [ValueError] here.) *)
Definition np_where {A : Type} (cond : ndarray bool) (x : A) (y : ndarray A)
  : result (ndarray A) :=
  if list_eq_dec Nat.eq_dec (nd_shape cond) (nd_shape y)
  then Ok (mk_ndarray (nd_shape y) (where_data (nd_data cond) x (nd_data y)))
  else Raise ValueError.

(** The error monad of a function that only raises, and the state and
    error monad of one that also reads and writes numpy's global random
    generator (state [S]). *)
Definition result_bind {A B : Type} (r : result A) (k : A -> result B)
  : result B :=
  match r with
  | Ok a => k a
  | Raise e => Raise e
  end.

Definition M (S A : Type) : Type := S -> result (A * S).

Definition ret {S A : Type} (a : A) : M S A := fun s => Ok (a, s).

Definition bind {S A B : Type} (m : M S A) (k : A -> M S B) : M S B :=
  fun s => match m s with
           | Ok (a, s') => k a s'
           | Raise e => Raise e
           end.

Definition lift {S A : Type} (r : result A) : M S A :=
  fun s => match r with
           | Ok a => Ok (a, s)
           | Raise e => Raise e
           end.

Definition put {S : Type} (s : S) : M S unit := fun _ => Ok (tt, s).

Declare Scope py_scope.
Delimit Scope py_scope with py.
Notation "x <- c ;; k" := (bind c (fun x => k))
  (at level 61, c at next level, right associativity) : py_scope.
Notation "c ;; k" := (bind c (fun _ => k))
  (at level 61, right associativity) : py_scope.

(** ** carnot_cop.py *)

Module carnot_cop.

(** [def celsius_to_kelvin(temp_celsius): return temp_celsius + 273.15] *)
Definition celsius_to_kelvin (temp_celsius : pyval) : pyval :=
  match temp_celsius with
  | PyFloat c => PyFloat (c + 273.15)
  | NdArray a => NdArray (nd_map (fun c => c + 273.15) a)
  end.

(** [carnot_cop_heating(T_hot_K, T_cold_K)].  [T_hot_K] is a Python float.
    With a Python float [T_cold_K] the subtraction and the division are
    Python's, and [np.where] wraps the result in a 0-d array; with an array
    they are numpy's elementwise operations. *)
Definition carnot_cop_heating (T_hot_K : Q) (T_cold_K : pyval)
  : result (ndarray npfloat) :=
  match T_cold_K with
  | PyFloat t =>
      let delta_T := T_hot_K - t in
      result_bind (py_truediv T_hot_K delta_T) (fun cop =>
      Ok (nd_0d (if Qle_bool delta_T 0 then NaN else Fin cop)))
  | NdArray a =>
      let delta_T := nd_map (fun t => T_hot_K - t) a in
      let cop := nd_map (fun d => np_true_divide T_hot_K d) delta_T in
      np_where (nd_map (fun d => Qle_bool d 0) delta_T) NaN cop
  end.

(** The module-level parameters of the script. *)
Definition T_target_1_C : Q := 35.
Definition T_target_2_C : Q := 65.

End carnot_cop.

(** ** carnot_cop.py on IEEE doubles

    The Python-float path of the two functions once more, on Rocq's
    primitive binary64 floats, which round as Python's do: a check of the
    idealisation at the concrete cases of the specification. *)

Module binary64.
Import Floats.PrimFloat.
#[local] Set Warnings "-inexact-float".

Definition celsius_to_kelvin (temp_celsius : float) : float :=
  (temp_celsius + 273.15)%float.

(** The value is the one element of the 0-d array [np.where] returns. *)
Definition carnot_cop_heating (T_hot_K T_cold_K : float) : result float :=
  let delta_T := (T_hot_K - T_cold_K)%float in
  if (delta_T =? 0)%float then Raise ZeroDivisionError
  else
    let cop := (T_hot_K / delta_T)%float in
    Ok (if (delta_T <=? 0)%float then nan else cop).

End binary64.

(** ** cop_data.py *)

Module cop_data.

(** The two arrays of the dictionary [TREND_LINE_DATA].  One-dimensional
    arrays are lists here. *)
Definition TREND_LINE_DATA_temperature_c : list Q :=
  [-20; -15; -10; -5; 0; 5; 10].
Definition TREND_LINE_DATA_cop_avg : list Q :=
  [1.8; 2.0; 2.2; 2.5; 2.8; 3.3; 3.7].

(** The numpy functions the generator calls: the least-squares fit and the
    global pseudorandom generator.  [np_random_seed] builds the generator
    state of a seed; seeding replaces the global state by it. *)
Class Numpy : Type := {
  rng_state : Type;
  np_polyfit : list Q -> list Q -> nat -> result (list Q);
  np_random_seed : Z -> rng_state;
  np_random_uniform : Q -> Q -> nat -> M rng_state (list Q);
  np_random_normal : Q -> list Q -> nat -> M rng_state (list Q)
}.

(** What numpy documents of them on valid arguments: [polyfit] of a
    non-empty [x] and a [y] of its length returns [deg + 1] coefficients;
    [uniform(low, high, size)] returns [size] values between [low] and
    [high]; [normal(loc, scale, size)] with non-negative scales, one per
    value, returns [size] values. *)
Class NumpyLaws (np : Numpy) : Prop := {
  polyfit_returns : forall x y deg,
    x <> [] -> length x = length y ->
    exists c, np_polyfit x y deg = Ok c /\ length c = S deg;
  uniform_returns : forall lo hi n s,
    lo <= hi ->
    exists l s', np_random_uniform lo hi n s = Ok (l, s') /\
                 length l = n /\ Forall (fun t => lo <= t /\ t <= hi) l;
  normal_returns : forall loc scale n s,
    length scale = n -> Forall (fun x => 0 <= x) scale ->
    exists l s', np_random_normal loc scale n s = Ok (l, s') /\ length l = n
}.

(** [a.min()] and [a.max()]: a [ValueError] on an empty array. *)
Definition ndarray_min (a : list Q) : result Q :=
  match a with
  | [] => Raise ValueError
  | x :: r => Ok (fold_left Qmin r x)
  end.

Definition ndarray_max (a : list Q) : result Q :=
  match a with
  | [] => Raise ValueError
  | x :: r => Ok (fold_left Qmax r x)
  end.

(** [p(x)] for [p = np.poly1d(c)]: Horner's rule over the coefficients,
    highest power first. *)
Definition np_poly1d (c : list Q) (x : Q) : Q :=
  fold_left (fun y pv => y * x + pv) c 0.

Fixpoint zip_with {A B C : Type} (f : A -> B -> C) (a : list A) (b : list B)
  : list C :=
  match a, b with
  | x :: a', y :: b' => f x y :: zip_with f a' b'
  | _, _ => []
  end.

(** [a + b] on one-dimensional arrays, with numpy's broadcasting of an
    array of one element. *)
Definition np_add (a b : list Q) : result (list Q) :=
  if Nat.eqb (length a) (length b) then Ok (zip_with Qplus a b)
  else if Nat.eqb (length a) 1 then Ok (map (fun y => hd 0 a + y) b)
  else if Nat.eqb (length b) 1 then Ok (map (fun x => x + hd 0 b) a)
  else Raise ValueError.

(** [np.maximum(a, v)] for a scalar [v]. *)
Definition np_maximum (a : list Q) (v : Q) : list Q :=
  map (fun x => Qmax x v) a.

Section generator.
Context {np : Numpy}.
Open Scope py_scope.

(** [generate_synthetic_scatter_data(trend_x, trend_y, num_points=1200)],
    statement by statement.  The state of the monad is numpy's global
    generator; [num_points] is a natural number. *)
Definition generate_synthetic_scatter_data
  (trend_x trend_y : list Q) (num_points : nat)
  : M rng_state (list Q * list Q * list Q) :=
  trend_poly <- lift (np_polyfit trend_x trend_y 3) ;;
  let p := np_poly1d trend_poly in
  put (np_random_seed 42) ;;
  lo <- lift (ndarray_min trend_x) ;;
  hi <- lift (ndarray_max trend_x) ;;
  synthetic_temp <- np_random_uniform lo hi num_points ;;
  let expected_cop := map p synthetic_temp in
  let variance_factor :=
    map (fun t => 0.2 + 0.1 * ((t + 20) / 30)) synthetic_temp in
  noise <- np_random_normal 0 variance_factor num_points ;;
  synthetic_cop <- lift (np_add expected_cop noise) ;;
  let synthetic_cop := np_maximum synthetic_cop 0.5 in
  ret (synthetic_temp, synthetic_cop, map p synthetic_temp).

End generator.

End cop_data.

(** ** A small executable numpy

    An instance of [Numpy] that computes: the least-squares fit solved
    exactly through the normal equations, and a linear-congruential
    generator in the place of numpy's Mersenne twister.  The generator is
    run on it at concrete inputs. *)

Module lcg_numpy.
Import cop_data.

(** *** Least squares by the normal equations *)

Definition vander_row (deg : nat) (x : Q) : list Q :=
  map (fun k => x ^ Z.of_nat (deg - k)) (seq 0 (S deg)).

Definition dot (a b : list Q) : Q :=
  fold_right Qplus 0 (zip_with Qmult a b).

Definition column (j : nat) (V : list (list Q)) : list Q :=
  map (fun r => nth j r 0) V.

(** Row [j] of the augmented system [(V^T V | V^T y)]. *)
Definition normal_system (deg : nat) (x y : list Q) : list (list Q) :=
  let V := map (vander_row deg) x in
  map (fun j =>
         map (fun k => Qred (dot (column j V) (column k V))) (seq 0 (S deg))
         ++ [Qred (dot (column j V) y)])
      (seq 0 (S deg)).

Fixpoint find_pivot (k : nat) (rows : list (list Q))
  : option (list Q * list (list Q)) :=
  match rows with
  | [] => None
  | r :: rs =>
      if Qeq_bool (nth k r 0) 0 then
        match find_pivot k rs with
        | Some (p, rest) => Some (p, r :: rest)
        | None => None
        end
      else Some (r, rs)
  end.

Definition eliminate (k : nat) (p r : list Q) : list Q :=
  let c := nth k r 0 in
  zip_with (fun a b => Qred (a - c * b)) r p.

(** One column of Gauss-Jordan elimination: the rows already reduced, each
    with the column of its pivot, and the rows still to reduce. *)
Definition gauss_step (acc : list (nat * list Q) * list (list Q)) (k : nat)
  : list (nat * list Q) * list (list Q) :=
  let (done, todo) := acc in
  match find_pivot k todo with
  | None => acc
  | Some (p, rest) =>
      let p' := map (fun v => Qred (v / nth k p 0)) p in
      (map (fun jr => (fst jr, eliminate k p' (snd jr))) done ++ [(k, p')],
       map (eliminate k p') rest)
  end.

Definition solve (m : nat) (rows : list (list Q)) : list Q :=
  let done := fst (fold_left gauss_step (seq 0 m) ([], rows)) in
  map (fun k =>
         match find (fun jr => Nat.eqb (fst jr) k) done with
         | Some jr => nth m (snd jr) 0
         | None => 0
         end)
      (seq 0 m).

Definition polyfit (x y : list Q) (deg : nat) : result (list Q) :=
  match x with
  | [] => Raise TypeError
  | _ :: _ =>
      if Nat.eqb (length x) (length y)
      then Ok (solve (S deg) (normal_system deg x y))
      else Raise TypeError
  end.

(** *** A linear-congruential generator *)

Definition lcg_modulus : Z := 2147483648.

Definition lcg_next (s : Z) : Z :=
  ((1103515245 * s + 12345) mod lcg_modulus)%Z.

Definition seed (z : Z) : Z := (z mod lcg_modulus)%Z.

(** A value of [[0, 1)] from a state. *)
Definition unit_sample (s : Z) : Q := Qred (s # 2147483648).

Fixpoint draw (n : nat) (s : Z) : list Q * Z :=
  match n with
  | O => ([], s)
  | S n' =>
      let s1 := lcg_next s in
      let (l, s2) := draw n' s1 in
      (unit_sample s1 :: l, s2)
  end.

Definition uniform (lo hi : Q) (n : nat) : M Z (list Q) :=
  fun s =>
    let (us, s') := draw n s in
    Ok (map (fun u => Qred (lo + (hi - lo) * u)) us, s').

(** A centred sample of unit variance: twelve uniform samples, minus 6. *)
Definition gauss (s : Z) : Q * Z :=
  let (us, s') := draw 12 s in
  (Qred (fold_right Qplus 0 us - 6), s').

Fixpoint normal_draw (loc : Q) (scale : list Q) (s : Z) : list Q * Z :=
  match scale with
  | [] => ([], s)
  | sc :: scale' =>
      let (g, s1) := gauss s in
      let (l, s2) := normal_draw loc scale' s1 in
      (Qred (loc + sc * g) :: l, s2)
  end.

Definition normal (loc : Q) (scale : list Q) (n : nat) : M Z (list Q) :=
  fun s =>
    if negb (Nat.eqb (length scale) n) then Raise ValueError
    else if existsb (fun sc => negb (Qle_bool 0 sc)) scale then Raise ValueError
    else Ok (normal_draw loc scale s).

Definition instance : Numpy := {|
  rng_state := Z;
  np_polyfit := polyfit;
  np_random_seed := seed;
  np_random_uniform := uniform;
  np_random_normal := normal
|}.

End lcg_numpy.

(** ** cop_data.py, with the generator state a raising call leaves

    [M] forgets the generator state when a call raises.  Here it is kept:
    a call returns a value and leaves a state, or raises and leaves a state
    too.  That state is known when the exception comes from outside numpy's
    generator; of a call of the generator that raises, [Numpy] does not say
    in which state it leaves it. *)

Module cop_data_state.
Import cop_data.

Inductive outcome (S A : Type) : Type :=
| Returns (a : A) (s : S)
| Raises (e : exn) (s : option S).
Arguments Returns {S A} a s.
Arguments Raises {S A} e s.

Definition MS (S A : Type) : Type := S -> outcome S A.

Definition ret_s {S A : Type} (a : A) : MS S A := fun s => Returns a s.

Definition bind_s {S A B : Type} (m : MS S A) (k : A -> MS S B) : MS S B :=
  fun s => match m s with
           | Returns a s' => k a s'
           | Raises e s' => Raises e s'
           end.

(** A step that does not touch the generator. *)
Definition lift_s {S A : Type} (r : result A) : MS S A :=
  fun s => match r with
           | Ok a => Returns a s
           | Raise e => Raises e (Some s)
           end.

(** A call of numpy's generator. *)
Definition call_s {S A : Type} (m : M S A) : MS S A :=
  fun s => match m s with
           | Ok (a, s') => Returns a s'
           | Raise e => Raises e None
           end.

Definition put_s {S : Type} (s : S) : MS S unit := fun _ => Returns tt s.

(** What [M] keeps of an outcome. *)
Definition forget {S A : Type} (o : outcome S A) : result (A * S) :=
  match o with
  | Returns a s => Ok (a, s)
  | Raises e _ => Raise e
  end.

Declare Scope py_state_scope.
Delimit Scope py_state_scope with py_state.
Notation "x <- c ;; k" := (bind_s c (fun x => k))
  (at level 61, c at next level, right associativity) : py_state_scope.
Notation "c ;; k" := (bind_s c (fun _ => k))
  (at level 61, right associativity) : py_state_scope.

Section generator.
Context {np : Numpy}.
Open Scope py_state_scope.

(** The statements of [generate_synthetic_scatter_data] once more. *)
Definition generate_synthetic_scatter_data
  (trend_x trend_y : list Q) (num_points : nat)
  : MS rng_state (list Q * list Q * list Q) :=
  trend_poly <- lift_s (np_polyfit trend_x trend_y 3) ;;
  let p := np_poly1d trend_poly in
  put_s (np_random_seed 42) ;;
  lo <- lift_s (ndarray_min trend_x) ;;
  hi <- lift_s (ndarray_max trend_x) ;;
  synthetic_temp <- call_s (np_random_uniform lo hi num_points) ;;
  let expected_cop := map p synthetic_temp in
  let variance_factor :=
    map (fun t => 0.2 + 0.1 * ((t + 20) / 30)) synthetic_temp in
  noise <- call_s (np_random_normal 0 variance_factor num_points) ;;
  synthetic_cop <- lift_s (np_add expected_cop noise) ;;
  let synthetic_cop := np_maximum synthetic_cop 0.5 in
  ret_s (synthetic_temp, synthetic_cop, map p synthetic_temp).

End generator.

End cop_data_state.

(** ** carnot_cop.py: the console summary *)

Module carnot_cop_summary.
Import carnot_cop.

(** The line [print_cop_at_temp] prints: the "Invalid (T_hot <= T_cold)"
    line, or the line of a COP (its two-decimal formatting is left out). *)
Inductive line : Type :=
| InvalidLine (T_cold_C : pyval) (T_hot_C : Q)
| CopLine (T_cold_C : pyval) (T_hot_C : Q) (cop : npfloat).

(** [a.item()]: the element of an array of one element, a [ValueError]
    for any other size. *)
Definition ndarray_item {A : Type} (a : ndarray A) : result A :=
  match nd_data a with
  | [x] => Ok x
  | _ => Raise ValueError
  end.

Definition np_isnan (x : npfloat) : bool :=
  match x with
  | NaN => true
  | _ => false
  end.

(** [print_cop_at_temp(T_cold_C, T_hot_C, T_hot_K)].  The value
    [carnot_cop_heating] returns is always an array, so the [isinstance]
    test holds and [.item()] is always called. *)
Definition print_cop_at_temp (T_cold_C : pyval) (T_hot_C T_hot_K : Q)
  : result line :=
  let T_cold_K := celsius_to_kelvin T_cold_C in
  result_bind (carnot_cop_heating T_hot_K T_cold_K) (fun cop =>
  result_bind (ndarray_item cop) (fun cop =>
  if np_isnan cop then Ok (InvalidLine T_cold_C T_hot_C)
  else Ok (CopLine T_cold_C T_hot_C cop))).

End carnot_cop_summary.

(** ** Definitions of the statements *)

(** What [carnot_cop_heating] computes at one element of an array. *)
Definition cop_element (T_hot_K t : Q) : npfloat :=
  if Qle_bool (T_hot_K - t) 0 then NaN
  else np_true_divide T_hot_K (T_hot_K - t).

(** The noise standard deviation as the specification writes it; the
    generator's own expression is the [variance_factor] of
    [generate_synthetic_scatter_data]. *)
Definition sigma (t : Q) : Q := 0.2 + 0.1 * ((t + 20) / 30).

(** * Properties *)

(** ** Arrays and the error monad *)

Lemma where_data_map {A B : Type} (f : A -> bool) (g : A -> B) (x : B)
  (l : list A) :
  where_data (map f l) x (map g l) = map (fun a => if f a then x else g a) l.
Proof.
  induction l as [|a l IH]; simpl; [reflexivity|].
  now rewrite IH.
Qed.

Lemma np_where_nd_map {A B : Type} (f : A -> bool) (g : A -> B) (x : B)
  (a : ndarray A) :
  np_where (nd_map f a) x (nd_map g a)
  = Ok (nd_map (fun v => if f v then x else g v) a).
Proof.
  unfold np_where, nd_map; simpl.
  destruct (list_eq_dec Nat.eq_dec (nd_shape a) (nd_shape a)) as [_|ne].
  - now rewrite where_data_map.
  - now contradiction ne.
Qed.

Lemma nd_map_map {A B C : Type} (f : A -> B) (g : B -> C) (a : ndarray A) :
  nd_map g (nd_map f a) = nd_map (fun v => g (f v)) a.
Proof.
  unfold nd_map; simpl. now rewrite map_map.
Qed.

Lemma Qle_bool_false (x y : Q) : Qle_bool x y = false <-> y < x.
Proof.
  split; intro H.
  - destruct (Qlt_le_dec y x) as [lt|le]; [exact lt|].
    apply Qle_bool_iff in le. congruence.
  - destruct (Qle_bool x y) eqn:E; [|reflexivity].
    apply Qle_bool_iff in E. lra.
Qed.

Lemma Qeq_bool_false (x y : Q) : ~ x == y -> Qeq_bool x y = false.
Proof.
  intro ne. destruct (Qeq_bool x y) eqn:E; [|reflexivity].
  apply Qeq_bool_iff in E. contradiction.
Qed.

(** ** carnot_cop.py *)

Section carnot_cop_properties.
Import carnot_cop.

Lemma carnot_cop_heating_array (T_hot_K : Q) (a : ndarray Q) :
  carnot_cop_heating T_hot_K (NdArray a) = Ok (nd_map (cop_element T_hot_K) a).
Proof.
  unfold carnot_cop_heating. rewrite !nd_map_map.
  now rewrite np_where_nd_map.
Qed.

Lemma cop_element_invalid (T_hot_K t : Q) :
  T_hot_K - t <= 0 -> cop_element T_hot_K t = NaN.
Proof.
  intro le. unfold cop_element.
  apply Qle_bool_iff in le. now rewrite le.
Qed.

Lemma cop_element_valid (T_hot_K t : Q) :
  0 < T_hot_K - t ->
  cop_element T_hot_K t = Fin (T_hot_K / (T_hot_K - t)).
Proof.
  intro lt. unfold cop_element, np_true_divide.
  rewrite (proj2 (Qle_bool_false _ _) lt).
  rewrite Qeq_bool_false; [reflexivity|lra].
Qed.

(** At a zero difference the division gives an infinity, which
    [np.where] then replaces. *)
Lemma np_true_divide_by_zero (T_hot_K t : Q) :
  0 < T_hot_K -> T_hot_K - t == 0 ->
  np_true_divide T_hot_K (T_hot_K - t) = PInf /\
  cop_element T_hot_K t = NaN.
Proof.
  intros hot z. split.
  - unfold np_true_divide. rewrite (proj2 (Qeq_bool_iff _ _) z).
    destruct (Qlt_le_dec 0 T_hot_K) as [_|le]; [reflexivity|lra].
  - apply cop_element_invalid. lra.
Qed.

Lemma cop_positive (T_hot_K t : Q) :
  0 < T_hot_K -> 0 < T_hot_K - t -> 0 < T_hot_K / (T_hot_K - t).
Proof.
  intros hot lt. apply Qlt_shift_div_l; lra.
Qed.

Lemma carnot_cop_heating_float (T_hot_K t : Q) :
  0 < T_hot_K - t ->
  carnot_cop_heating T_hot_K (PyFloat t)
  = Ok (nd_0d (Fin (T_hot_K / (T_hot_K - t)))).
Proof.
  intro lt. unfold carnot_cop_heating, py_truediv; simpl.
  rewrite Qeq_bool_false by lra. simpl.
  now apply Qle_bool_false in lt as ->.
Qed.

(** On Python floats a zero difference is not masked: the division
    raises before [np.where] is reached. *)
Lemma carnot_cop_heating_float_zero (T_hot_K t : Q) :
  T_hot_K - t == 0 ->
  carnot_cop_heating T_hot_K (PyFloat t) = Raise ZeroDivisionError.
Proof.
  intro z. unfold carnot_cop_heating, py_truediv; simpl.
  apply Qeq_bool_iff in z. now rewrite z.
Qed.

Lemma cop_above_one (T_hot_K t : Q) :
  0 < t -> t < T_hot_K -> 1 < T_hot_K / (T_hot_K - t).
Proof.
  intros pos lt. apply Qlt_shift_div_l; lra.
Qed.

Lemma cop_increasing (T_hot_K t1 t2 : Q) :
  0 < T_hot_K -> t1 < t2 -> t2 < T_hot_K ->
  T_hot_K / (T_hot_K - t1) < T_hot_K / (T_hot_K - t2).
Proof.
  intros hot lt12 lt2.
  apply Qlt_shift_div_l; [lra|].
  unfold Qdiv. rewrite <- Qmult_assoc, (Qmult_comm (/ _)).
  rewrite Qmult_assoc. apply Qlt_shift_div_r; [lra|].
  nra.
Qed.

End carnot_cop_properties.

Section carnot_cop_claims.
Import carnot_cop.

(** C5. [celsius_to_kelvin] adds 273.15: to a Python number, and to every
    element of an array of any shape, whose shape it keeps; it has no
    error case (its result is a value, not a [result]).  At 0 it gives
    273.15 and at -273.15 it gives 0. *)
Theorem celsius_to_kelvin_elementwise :
  (forall c : Q, celsius_to_kelvin (PyFloat c) = PyFloat (c + 273.15)) /\
  (forall a : ndarray Q,
      exists k : ndarray Q,
        celsius_to_kelvin (NdArray a) = NdArray k /\
        nd_shape k = nd_shape a /\
        length (nd_data k) = length (nd_data a) /\
        forall (i : nat) (c : Q),
          nth_error (nd_data a) i = Some c ->
          nth_error (nd_data k) i = Some (c + 273.15)) /\
  (exists k : Q, celsius_to_kelvin (PyFloat 0) = PyFloat k /\ k == 273.15) /\
  (exists k : Q,
      celsius_to_kelvin (PyFloat (-273.15)) = PyFloat k /\ k == 0).
Proof.
  repeat split.
  - intro a. exists (nd_map (fun c => c + 273.15) a).
    repeat split.
    + simpl. apply length_map.
    + intros i c Hi. simpl. now rewrite nth_error_map, Hi.
  - eexists. split; [reflexivity|]. lra.
  - eexists. split; [reflexivity|]. lra.
Qed.

(** C1. For a positive [T_hot_K] and a sequence [T_cold_K] of positive
    reals, [carnot_cop_heating] returns (it does not raise) a sequence of
    the same length; its element [i] is the invalid marker exactly when
    [T_hot_K - T_cold_K[i] <= 0], and is otherwise the finite positive
    value [T_hot_K / (T_hot_K - T_cold_K[i])]. *)
Theorem carnot_cop_heating_elementwise (T_hot_K : Q) (T_cold_K : list Q) :
  0 < T_hot_K ->
  Forall (fun t => 0 < t) T_cold_K ->
  exists cop : ndarray npfloat,
    carnot_cop_heating T_hot_K (NdArray (nd_1d T_cold_K)) = Ok cop /\
    nd_shape cop = [length T_cold_K] /\
    length (nd_data cop) = length T_cold_K /\
    forall (i : nat) (t : Q),
      nth_error T_cold_K i = Some t ->
      (nth_error (nd_data cop) i = Some NaN <-> T_hot_K - t <= 0) /\
      (~ T_hot_K - t <= 0 ->
       nth_error (nd_data cop) i = Some (Fin (T_hot_K / (T_hot_K - t))) /\
       0 < T_hot_K / (T_hot_K - t)).
Proof.
  intros hot _.
  exists (nd_map (cop_element T_hot_K) (nd_1d T_cold_K)).
  split; [apply carnot_cop_heating_array|].
  split; [reflexivity|].
  split; [apply length_map|].
  intros i t Hi. simpl. rewrite nth_error_map, Hi. simpl.
  destruct (Qlt_le_dec 0 (T_hot_K - t)) as [lt|le].
  - rewrite (cop_element_valid _ _ lt). split.
    + split; [discriminate|lra].
    + intros _. split; [reflexivity|now apply cop_positive].
  - rewrite (cop_element_invalid _ _ le). split.
    + now split.
    + intro n. contradiction.
Qed.

Lemma carnot_cop_heating_elementwise_witness :
  exists cop : ndarray npfloat,
    carnot_cop_heating 308.15 (NdArray (nd_1d [273.15; 308.15; 320])) = Ok cop /\
    nth_error (nd_data cop) 0 = Some (Fin (308.15 / (308.15 - 273.15))) /\
    nth_error (nd_data cop) 1 = Some NaN /\
    nth_error (nd_data cop) 2 = Some NaN.
Proof.
  destruct (carnot_cop_heating_elementwise 308.15 [273.15; 308.15; 320])
    as (cop & run & _ & _ & elems).
  - reflexivity.
  - repeat constructor.
  - exists cop. split; [exact run|].
    split; [|split].
    + apply (elems 0%nat 273.15 eq_refl). intro le. vm_compute in le.
      now apply le.
    + apply (elems 1%nat 308.15 eq_refl). now vm_compute.
    + apply (elems 2%nat 320 eq_refl). now vm_compute.
Defined.

(** C3, as amended.  For [0 < T_cold_K < T_hot_K] the call returns a
    finite value that is at least 1, and it does not decrease as [T_cold_K]
    grows toward [T_hot_K].  (The inequalities are strict in exact
    arithmetic; rounding can turn them into equalities, see
    [binary64_rounding_effects].) *)
Theorem carnot_cop_at_least_one_monotone (T_hot_K t1 t2 : Q) :
  0 < t1 -> t1 < t2 -> t2 < T_hot_K ->
  exists c1 c2 : Q,
    carnot_cop_heating T_hot_K (PyFloat t1) = Ok (nd_0d (Fin c1)) /\
    carnot_cop_heating T_hot_K (PyFloat t2) = Ok (nd_0d (Fin c2)) /\
    1 <= c1 /\ 1 <= c2 /\ c1 <= c2.
Proof.
  intros pos lt12 lt2.
  exists (T_hot_K / (T_hot_K - t1)), (T_hot_K / (T_hot_K - t2)).
  split; [apply carnot_cop_heating_float; lra|].
  split; [apply carnot_cop_heating_float; lra|].
  split; [apply Qlt_le_weak, cop_above_one; lra|].
  split; [apply Qlt_le_weak, cop_above_one; lra|].
  apply Qlt_le_weak, cop_increasing; lra.
Qed.

Lemma carnot_cop_at_least_one_monotone_witness :
  exists c1 c2 : Q,
    carnot_cop_heating 338.15 (PyFloat 238.15) = Ok (nd_0d (Fin c1)) /\
    carnot_cop_heating 338.15 (PyFloat 273.15) = Ok (nd_0d (Fin c2)) /\
    1 <= c1 /\ 1 <= c2 /\ c1 <= c2.
Proof.
  apply (carnot_cop_at_least_one_monotone 338.15 238.15 273.15);
    reflexivity.
Defined.

(** C3, as stated, fails: with [T_hot_K = 338.15] the result at the colder
    238.15 is not above the result at the warmer 273.15. *)
Lemma carnot_cop_not_decreasing :
  exists c1 c2 : Q,
    0 < 338.15 /\ 0 < 238.15 /\ 238.15 < 273.15 /\ 273.15 < 338.15 /\
    carnot_cop_heating 338.15 (PyFloat 238.15) = Ok (nd_0d (Fin c1)) /\
    carnot_cop_heating 338.15 (PyFloat 273.15) = Ok (nd_0d (Fin c2)) /\
    ~ c1 > c2.
Proof.
  do 2 eexists.
  do 4 (split; [reflexivity|]).
  split; [vm_compute; reflexivity|].
  split; [vm_compute; reflexivity|].
  intro gt. vm_compute in gt. discriminate gt.
Qed.

(** C4. The two concrete cases: a 65 degree target at -35 degrees gives
    338.15 / 100 = 3.3815, and a 35 degree target at 0 degrees gives
    308.15 / 35, which is 8.80 to two decimals. *)
Theorem carnot_cop_concrete_cases :
  (exists th tc c : Q,
      celsius_to_kelvin (PyFloat T_target_2_C) = PyFloat th /\
      celsius_to_kelvin (PyFloat (-35)) = PyFloat tc /\
      th == 338.15 /\ tc == 238.15 /\
      carnot_cop_heating th (PyFloat tc) = Ok (nd_0d (Fin c)) /\
      c == 338.15 / (338.15 - 238.15) /\ c == 3.3815) /\
  (exists th tc c : Q,
      celsius_to_kelvin (PyFloat T_target_1_C) = PyFloat th /\
      celsius_to_kelvin (PyFloat 0) = PyFloat tc /\
      th == 308.15 /\ tc == 273.15 /\
      carnot_cop_heating th (PyFloat tc) = Ok (nd_0d (Fin c)) /\
      c == 308.15 / 35 /\ 8.795 <= c /\ c < 8.805).
Proof.
  split.
  - do 3 eexists.
    split; [reflexivity|]. split; [reflexivity|].
    split; [reflexivity|]. split; [reflexivity|].
    split; [vm_compute; reflexivity|].
    split; reflexivity.
  - do 3 eexists.
    split; [reflexivity|]. split; [reflexivity|].
    split; [reflexivity|]. split; [reflexivity|].
    split; [vm_compute; reflexivity|].
    split; [reflexivity|]. split; [discriminate|reflexivity].
Qed.

End carnot_cop_claims.

(** ** The concrete cases on IEEE doubles *)

Section binary64_runs.
Import Floats.PrimFloat.
#[local] Set Warnings "-inexact-float".

(** In binary64 the two conversions of the specification are exact and the
    65 degree case gives the double nearest to 3.3815. *)
Lemma binary64_concrete_cases :
  binary64.celsius_to_kelvin 0 = 273.15%float /\
  binary64.celsius_to_kelvin (-273.15) = 0%float /\
  binary64.carnot_cop_heating (binary64.celsius_to_kelvin 65)
    (binary64.celsius_to_kelvin (-35)) = Ok 3.3815%float /\
  binary64.carnot_cop_heating (binary64.celsius_to_kelvin 35)
    (binary64.celsius_to_kelvin 0) = Ok 8.8042857142857134%float /\
  binary64.carnot_cop_heating (binary64.celsius_to_kelvin 35)
    (binary64.celsius_to_kelvin 35) = Raise ZeroDivisionError.
Proof.
  repeat split; vm_compute; reflexivity.
Qed.

(** What rounding does on doubles.  A cold temperature far below the
    resolution of [T_hot_K] gives exactly 1, and two adjacent cold
    temperatures give the same result: the bound and the monotonicity are
    not strict.  An ambient temperature just under the target converts to
    the Kelvin value of the target, and the call then raises as at equal
    temperatures.  A difference that overflows gives 0. *)
Lemma binary64_rounding_effects :
  binary64.carnot_cop_heating 338.15 1e-20 = Ok 1%float /\
  binary64.carnot_cop_heating 338.15 100
  = binary64.carnot_cop_heating 338.15 (next_up 100) /\
  (34.99999999999999 <? 35)%float = true /\
  binary64.celsius_to_kelvin 34.99999999999999
  = binary64.celsius_to_kelvin 35 /\
  binary64.carnot_cop_heating (binary64.celsius_to_kelvin 35)
    (binary64.celsius_to_kelvin 34.99999999999999)
  = Raise ZeroDivisionError /\
  binary64.carnot_cop_heating 0x1p1023 (-0x1p1023) = Ok 0%float.
Proof.
  repeat split; vm_compute; reflexivity.
Qed.

End binary64_runs.

(** ** cop_data.py *)

Section cop_data_properties.
Import cop_data.
Context {np : Numpy}.

(** The steps of a run of the generator that returns. *)
Lemma generate_inv (trend_x trend_y : list Q) (num_points : nat)
  (s s' : rng_state) (temp cop expected : list Q) :
  generate_synthetic_scatter_data trend_x trend_y num_points s
  = Ok ((temp, cop, expected), s') ->
  exists (coeffs : list Q) (lo hi : Q) (s1 : rng_state) (noise total : list Q),
    np_polyfit trend_x trend_y 3 = Ok coeffs /\
    ndarray_min trend_x = Ok lo /\
    ndarray_max trend_x = Ok hi /\
    np_random_uniform lo hi num_points (np_random_seed 42) = Ok (temp, s1) /\
    np_random_normal 0 (map sigma temp) num_points s1 = Ok (noise, s') /\
    np_add (map (np_poly1d coeffs) temp) noise = Ok total /\
    cop = np_maximum total 0.5 /\
    expected = map (np_poly1d coeffs) temp.
Proof.
  unfold generate_synthetic_scatter_data, bind, lift, put, ret.
  destruct (np_polyfit trend_x trend_y 3) as [coeffs|] eqn:Ep;
    [|discriminate].
  destruct (ndarray_min trend_x) as [lo|] eqn:Elo; [|discriminate].
  destruct (ndarray_max trend_x) as [hi|] eqn:Ehi; [|discriminate].
  destruct (np_random_uniform lo hi num_points (np_random_seed 42))
    as [[t s1]|] eqn:Eu; [|discriminate].
  destruct (np_random_normal _ _ num_points s1) as [[noise s2]|] eqn:En;
    [|discriminate].
  destruct (np_add _ noise) as [total|] eqn:Ea; [|discriminate].
  intro H. injection H as <- <- <- <-.
  exists coeffs, lo, hi, s1, noise, total.
  repeat split; assumption.
Qed.

(** The generator never reads the state it is started in. *)
Lemma generate_ignores_state (trend_x trend_y : list Q) (num_points : nat)
  (s1 s2 : rng_state) :
  generate_synthetic_scatter_data trend_x trend_y num_points s1
  = generate_synthetic_scatter_data trend_x trend_y num_points s2.
Proof.
  unfold generate_synthetic_scatter_data, bind, lift, put.
  destruct (np_polyfit trend_x trend_y 3); reflexivity.
Qed.

Lemma fold_min_le (r : list Q) (x : Q) : fold_left Qmin r x <= x.
Proof.
  revert x. induction r as [|a r IH]; intro x; simpl; [lra|].
  specialize (IH (Qmin x a)). pose proof (Q.le_min_l x a). lra.
Qed.

Lemma fold_max_ge (r : list Q) (x : Q) : x <= fold_left Qmax r x.
Proof.
  revert x. induction r as [|a r IH]; intro x; simpl; [lra|].
  specialize (IH (Qmax x a)). pose proof (Q.le_max_l x a). lra.
Qed.

Lemma fold_min_lower (r : list Q) (x : Q) :
  Forall (fun v => fold_left Qmin r x <= v) r.
Proof.
  revert x. induction r as [|a r IH]; intro x; simpl; constructor.
  - pose proof (fold_min_le r (Qmin x a)). pose proof (Q.le_min_r x a). lra.
  - apply IH.
Qed.

Lemma fold_max_upper (r : list Q) (x : Q) :
  Forall (fun v => v <= fold_left Qmax r x) r.
Proof.
  revert x. induction r as [|a r IH]; intro x; simpl; constructor.
  - pose proof (fold_max_ge r (Qmax x a)). pose proof (Q.le_max_r x a). lra.
  - apply IH.
Qed.

(** [a.min()] is below every element and [a.max()] above. *)
Lemma ndarray_min_lower (a : list Q) (lo : Q) :
  ndarray_min a = Ok lo -> Forall (fun v => lo <= v) a.
Proof.
  destruct a as [|x r]; simpl; [discriminate|].
  intro H. injection H as <-. constructor.
  - apply fold_min_le.
  - apply fold_min_lower.
Qed.

Lemma ndarray_max_upper (a : list Q) (hi : Q) :
  ndarray_max a = Ok hi -> Forall (fun v => v <= hi) a.
Proof.
  destruct a as [|x r]; simpl; [discriminate|].
  intro H. injection H as <-. constructor.
  - apply fold_max_ge.
  - apply fold_max_upper.
Qed.

Lemma Qmin_cases (x y : Q) : Qmin x y = x \/ Qmin x y = y.
Proof.
  unfold Qmin, GenericMinMax.gmin. destruct (x ?= y); auto.
Qed.

Lemma Qmax_cases (x y : Q) : Qmax x y = x \/ Qmax x y = y.
Proof.
  unfold Qmax, GenericMinMax.gmax. destruct (x ?= y); auto.
Qed.

Lemma fold_min_in (r : list Q) (x : Q) : In (fold_left Qmin r x) (x :: r).
Proof.
  revert x. induction r as [|a r IH]; intro x; simpl; [now left|].
  destruct (IH (Qmin x a)) as [E|I]; [|now right; right].
  rewrite <- E. destruct (Qmin_cases x a) as [-> | ->]; auto.
Qed.

Lemma fold_max_in (r : list Q) (x : Q) : In (fold_left Qmax r x) (x :: r).
Proof.
  revert x. induction r as [|a r IH]; intro x; simpl; [now left|].
  destruct (IH (Qmax x a)) as [E|I]; [|now right; right].
  rewrite <- E. destruct (Qmax_cases x a) as [-> | ->]; auto.
Qed.

(** [a.min()] and [a.max()] are elements of [a]. *)
Lemma ndarray_min_max_in (a : list Q) (lo hi : Q) :
  ndarray_min a = Ok lo -> ndarray_max a = Ok hi -> In lo a /\ In hi a.
Proof.
  destruct a as [|x r]; simpl; [discriminate|].
  intros Hlo Hhi. injection Hlo as <-. injection Hhi as <-.
  split; [apply fold_min_in|apply fold_max_in].
Qed.

Lemma fold_min_glb (b : Q) (r : list Q) (x : Q) :
  b <= x -> Forall (fun v => b <= v) r -> b <= fold_left Qmin r x.
Proof.
  revert x. induction r as [|a r IH]; intros x bx Hr; simpl; [exact bx|].
  inversion Hr as [|? ? ba Hr']; subst.
  apply IH; [|exact Hr']. now apply Q.min_glb.
Qed.

Lemma ndarray_min_max (a : list Q) :
  a <> [] ->
  exists lo hi : Q,
    ndarray_min a = Ok lo /\ ndarray_max a = Ok hi /\ lo <= hi.
Proof.
  destruct a as [|x r]; [congruence|]. intros _.
  exists (fold_left Qmin r x), (fold_left Qmax r x).
  repeat split.
  pose proof (fold_min_le r x). pose proof (fold_max_ge r x). lra.
Qed.

Lemma ndarray_min_glb (b : Q) (a : list Q) (lo : Q) :
  Forall (fun v => b <= v) a -> ndarray_min a = Ok lo -> b <= lo.
Proof.
  destruct a as [|x r]; simpl; [discriminate|].
  intros Ha H. injection H as <-.
  inversion Ha; subst. now apply fold_min_glb.
Qed.

Lemma zip_with_length {A B C : Type} (f : A -> B -> C) (a : list A)
  (b : list B) :
  length a = length b -> length (zip_with f a b) = length a.
Proof.
  revert b. induction a as [|x a IH]; intros [|y b] H; simpl in *;
    try reflexivity; try discriminate.
  f_equal. apply IH. now injection H.
Qed.

Lemma np_add_same_length (a b : list Q) :
  length a = length b ->
  exists total : list Q, np_add a b = Ok total /\ length total = length a.
Proof.
  intro H. unfold np_add. rewrite (proj2 (Nat.eqb_eq _ _) H).
  eexists. split; [reflexivity|]. now apply zip_with_length.
Qed.

Lemma sigma_monotone (t1 t2 : Q) : t1 <= t2 -> sigma t1 <= sigma t2.
Proof.
  intro le. unfold sigma.
  assert ((t1 + 20) / 30 <= (t2 + 20) / 30).
  { unfold Qdiv. apply Qmult_le_compat_r; [lra|]. discriminate. }
  lra.
Qed.

Lemma sigma_nonneg (t : Q) : -80 <= t -> 0 <= sigma t.
Proof.
  intro le. apply Qle_trans with (sigma (-80)).
  - discriminate.
  - now apply sigma_monotone.
Qed.

(** Horner's rule on four coefficients is the cubic. *)
Lemma np_poly1d_cubic (c3 c2 c1 c0 t : Q) :
  np_poly1d [c3; c2; c1; c0] t == c3 * t ^ 3 + c2 * t ^ 2 + c1 * t + c0.
Proof.
  unfold np_poly1d; simpl. field.
Qed.

End cop_data_properties.

(** ** The executable numpy satisfies the laws *)

Section lcg_numpy_properties.
Import cop_data lcg_numpy.

Lemma solve_length (m : nat) (rows : list (list Q)) :
  length (solve m rows) = m.
Proof.
  unfold solve. now rewrite length_map, length_seq.
Qed.

Lemma lcg_next_bound (s : Z) : (0 <= lcg_next s < 2147483648)%Z.
Proof.
  apply Z.mod_pos_bound; reflexivity.
Qed.

Lemma unit_sample_unit (z : Z) :
  (0 <= z < 2147483648)%Z -> 0 <= unit_sample z /\ unit_sample z < 1.
Proof.
  intros [lo hi]. unfold unit_sample. rewrite Qred_correct.
  unfold Qle, Qlt; cbn [Qnum Qden]. lia.
Qed.

Lemma unit_sample_range (s : Z) :
  0 <= unit_sample (lcg_next s) /\ unit_sample (lcg_next s) < 1.
Proof.
  apply unit_sample_unit, lcg_next_bound.
Qed.

Lemma draw_length (n : nat) (s : Z) : length (fst (draw n s)) = n.
Proof.
  revert s. induction n as [|n IH]; intro s; simpl; [reflexivity|].
  specialize (IH (lcg_next s)).
  destruct (draw n (lcg_next s)) as [l s2]; simpl in *. now rewrite IH.
Qed.

Lemma draw_range (n : nat) (s : Z) :
  Forall (fun u => 0 <= u /\ u < 1) (fst (draw n s)).
Proof.
  revert s. induction n as [|n IH]; intro s; simpl; [constructor|].
  specialize (IH (lcg_next s)).
  destruct (draw n (lcg_next s)) as [l s2]; simpl in *.
  constructor; [apply unit_sample_range|exact IH].
Qed.

Lemma normal_draw_length (loc : Q) (scale : list Q) (s : Z) :
  length (fst (normal_draw loc scale s)) = length scale.
Proof.
  revert s. induction scale as [|sc scale IH]; intro s; [reflexivity|].
  cbn [normal_draw]. destruct (gauss s) as [g s1]. specialize (IH s1).
  destruct (normal_draw loc scale s1) as [l s2]. cbn [fst length] in *.
  now rewrite IH.
Qed.

Lemma scale_check (scale : list Q) :
  Forall (fun x => 0 <= x) scale ->
  existsb (fun sc => negb (Qle_bool 0 sc)) scale = false.
Proof.
  induction 1 as [|x l Hx _ IH]; simpl; [reflexivity|].
  apply Qle_bool_iff in Hx. now rewrite Hx, IH.
Qed.

Lemma lcg_numpy_laws : NumpyLaws instance.
Proof.
  constructor; simpl.
  - intros x y deg nonempty len. unfold polyfit.
    destruct x as [|x0 x]; [congruence|].
    rewrite (proj2 (Nat.eqb_eq _ _) len).
    eexists. split; [reflexivity|]. apply solve_length.
  - intros lo hi n s le. unfold uniform.
    pose proof (draw_length n s) as len.
    pose proof (draw_range n s) as range.
    destruct (draw n s) as [us s']; simpl in *.
    exists (map (fun u => Qred (lo + (hi - lo) * u)) us), s'.
    split; [reflexivity|]. split; [now rewrite length_map|].
    apply Forall_map. revert range. apply Forall_impl.
    intros u [u0 u1]. rewrite Qred_correct. split; nra.
  - intros loc scale n s len nonneg. unfold normal.
    rewrite (proj2 (Nat.eqb_eq _ _) len); simpl.
    rewrite (scale_check _ nonneg).
    pose proof (normal_draw_length loc scale s) as len'.
    destruct (normal_draw loc scale s) as [l s']; simpl in *.
    exists l, s'. split; [reflexivity|]. congruence.
Qed.

End lcg_numpy_properties.

(** ** The claims on cop_data.py *)

Section cop_data_claims.
Import cop_data.
Context {np : Numpy}.

(** C2. Every COP value the generator returns is at least 0.5, whatever
    the generator state it is called in and whatever [num_points]: the
    COP sequence is the maximum with 0.5 of the expectation plus the noise,
    and a value that is 0.5 or more is returned as it is (no ceiling). *)
Theorem synthetic_cop_floor (trend_x trend_y : list Q) (num_points : nat)
  (s s' : rng_state) (temp cop expected : list Q) :
  generate_synthetic_scatter_data trend_x trend_y num_points s
  = Ok ((temp, cop, expected), s') ->
  Forall (fun c => 0.5 <= c) cop /\
  exists noise total : list Q,
    np_add expected noise = Ok total /\
    length cop = length total /\
    forall (i : nat) (x : Q),
      nth_error total i = Some x ->
      nth_error cop i = Some (Qmax x 0.5) /\
      (0.5 <= x -> nth_error cop i = Some x).
Proof.
  intro run.
  apply generate_inv in run
    as (coeffs & lo & hi & s1 & noise & total
        & _ & _ & _ & _ & _ & sum & -> & ->).
  unfold np_maximum. split.
  - apply Forall_map, Forall_forall. intros c _. apply Q.le_max_r.
  - exists noise, total. split; [exact sum|]. split; [apply length_map|].
    intros i x Hi. rewrite nth_error_map, Hi. split; [reflexivity|].
    intro le. simpl. f_equal.
    unfold Qmax, GenericMinMax.gmax.
    destruct (x ?= 0.5) eqn:cmp; try reflexivity.
    apply Qlt_alt in cmp. lra.
Qed.

(** C6. The scale array passed to [np.random.normal] holds, at the index
    of each sampled temperature [t], [sigma(t) = 0.2 + 0.1 * ((t + 20) / 30)];
    [sigma] is non-decreasing over [[-20, 10]], where its least value is
    0.2, taken at -20. *)
Theorem noise_scale_is_sigma (trend_x trend_y : list Q) (num_points : nat)
  (s s' : rng_state) (temp cop expected : list Q) :
  generate_synthetic_scatter_data trend_x trend_y num_points s
  = Ok ((temp, cop, expected), s') ->
  (exists (scale : list Q) (s1 : rng_state) (noise total : list Q),
      np_random_normal 0 scale num_points s1 = Ok (noise, s') /\
      length scale = length temp /\
      (forall (i : nat) (t : Q),
          nth_error temp i = Some t ->
          nth_error scale i = Some (0.2 + 0.1 * ((t + 20) / 30))) /\
      np_add expected noise = Ok total /\
      cop = np_maximum total 0.5) /\
  (forall t : Q, sigma t = 0.2 + 0.1 * ((t + 20) / 30)) /\
  (forall t1 t2 : Q,
      -20 <= t1 -> t1 <= t2 -> t2 <= 10 -> sigma t1 <= sigma t2) /\
  sigma (-20) == 0.2 /\
  (forall t : Q, -20 <= t -> t <= 10 -> 0.2 <= sigma t).
Proof.
  intro run.
  apply generate_inv in run
    as (coeffs & lo & hi & s1 & noise & total
        & _ & _ & _ & _ & draw & sum & -> & ->).
  split; [|split; [|split; [|split]]].
  - exists (map sigma temp), s1, noise, total.
    split; [exact draw|]. split; [apply length_map|].
    split; [|split; [exact sum|reflexivity]].
    intros i t Hi. now rewrite nth_error_map, Hi.
  - reflexivity.
  - intros t1 t2 _ le _. now apply sigma_monotone.
  - reflexivity.
  - intros t lo20 _. apply Qle_trans with (sigma (-20)).
    + discriminate.
    + now apply sigma_monotone.
Qed.

(** C8. With trend data that is not empty, has a COP for each temperature
    and has no temperature under -80 (below which the noise scale would be
    negative), the generator returns; the temperature and the COP
    sequences have [num_points] elements each, and every temperature lies
    between the least and the greatest trend temperature. *)
Theorem generate_lengths_and_range {laws : NumpyLaws np}
  (trend_x trend_y : list Q) (num_points : nat) (s : rng_state) :
  trend_x <> [] ->
  length trend_x = length trend_y ->
  Forall (fun x => -80 <= x) trend_x ->
  exists (temp cop expected : list Q) (s' : rng_state) (lo hi : Q),
    generate_synthetic_scatter_data trend_x trend_y num_points s
    = Ok ((temp, cop, expected), s') /\
    length temp = num_points /\
    length cop = num_points /\
    ndarray_min trend_x = Ok lo /\
    ndarray_max trend_x = Ok hi /\
    Forall (fun t => lo <= t /\ t <= hi) temp.
Proof.
  intros nonempty len above.
  destruct (polyfit_returns trend_x trend_y 3 nonempty len)
    as (coeffs & fit & _).
  destruct (ndarray_min_max trend_x nonempty) as (lo & hi & Elo & Ehi & le).
  destruct (uniform_returns lo hi num_points (np_random_seed 42) le)
    as (temp & s1 & Eu & len_temp & range).
  assert (Forall (fun x => 0 <= x) (map sigma temp)) as nonneg.
  { apply Forall_map. revert range. apply Forall_impl.
    intros t [lo_t _]. apply sigma_nonneg.
    pose proof (ndarray_min_glb (-80) trend_x lo above Elo). lra. }
  destruct (normal_returns 0 (map sigma temp) num_points s1)
    as (noise & s' & En & len_noise);
    [now rewrite length_map|exact nonneg|].
  destruct (np_add_same_length (map (np_poly1d coeffs) temp) noise)
    as (total & Ea & len_total);
    [rewrite length_map; congruence|].
  exists temp, (np_maximum total 0.5), (map (np_poly1d coeffs) temp), s', lo, hi.
  split.
  - unfold generate_synthetic_scatter_data, bind, lift, put, ret.
    rewrite fit, Elo, Ehi, Eu.
    change (map (fun t => 0.2 + 0.1 * ((t + 20) / 30)) temp)
      with (map sigma temp).
    now rewrite En, Ea.
  - split; [exact len_temp|].
    split; [|now repeat split].
    unfold np_maximum. rewrite length_map, len_total, length_map.
    exact len_temp.
Qed.

(** C7, as amended.  Two calls with the same arguments return the same
    sequences, also when the second call follows the first; the seed is not
    an argument, and seeding numpy's generator differently before the call
    changes nothing. *)
Theorem generate_repeatable (trend_x trend_y : list Q) (num_points : nat) :
  let generate :=
    generate_synthetic_scatter_data trend_x trend_y num_points in
  (forall s : rng_state,
      bind generate (fun r1 => bind generate (fun r2 => ret (r1, r2))) s
      = bind generate (fun r => ret (r, r)) s) /\
  (forall seed1 seed2 : Z,
      generate (np_random_seed seed1) = generate (np_random_seed seed2)).
Proof.
  intro generate. split.
  - intro s. unfold bind.
    destruct (generate s) as [[r1 s1]|e] eqn:run; [|reflexivity].
    unfold generate in *.
    rewrite (generate_ignores_state trend_x trend_y num_points s1 s).
    now rewrite run.
  - intros seed1 seed2. apply generate_ignores_state.
Qed.

(** C10. The third sequence returned is the fitted polynomial at the
    returned temperatures, element by element; the polynomial of four
    coefficients is the cubic; and the COP sequence is this third sequence
    with the noise added and the floor applied, which the third sequence
    has not. *)
Theorem expected_is_fitted_polynomial (trend_x trend_y : list Q)
  (num_points : nat) (s s' : rng_state) (temp cop expected : list Q) :
  generate_synthetic_scatter_data trend_x trend_y num_points s
  = Ok ((temp, cop, expected), s') ->
  exists coeffs : list Q,
    np_polyfit trend_x trend_y 3 = Ok coeffs /\
    length expected = length temp /\
    (forall (i : nat) (t : Q),
        nth_error temp i = Some t ->
        nth_error expected i = Some (np_poly1d coeffs t)) /\
    (forall c3 c2 c1 c0 t : Q,
        coeffs = [c3; c2; c1; c0] ->
        np_poly1d coeffs t == c3 * t ^ 3 + c2 * t ^ 2 + c1 * t + c0) /\
    (exists noise total : list Q,
        np_add expected noise = Ok total /\ cop = np_maximum total 0.5).
Proof.
  intro run.
  apply generate_inv in run
    as (coeffs & lo & hi & s1 & noise & total
        & fit & _ & _ & _ & _ & sum & -> & ->).
  exists coeffs. split; [exact fit|]. split; [apply length_map|].
  split; [|split].
  - intros i t Hi. now rewrite nth_error_map, Hi.
  - intros c3 c2 c1 c0 t ->. apply np_poly1d_cubic.
  - now exists noise, total.
Qed.

End cop_data_claims.

(** ** Runs on the executable numpy *)

Section runs.
Import cop_data lcg_numpy.

Lemma synthetic_cop_floor_witness :
  exists (temp cop expected : list Q) (s' : Z),
    @generate_synthetic_scatter_data instance
      TREND_LINE_DATA_temperature_c TREND_LINE_DATA_cop_avg 3 0%Z
    = Ok ((temp, cop, expected), s') /\
    Forall (fun c => 0.5 <= c) cop.
Proof.
  do 4 eexists. split; [vm_compute; reflexivity|].
  eapply (@synthetic_cop_floor instance
            TREND_LINE_DATA_temperature_c TREND_LINE_DATA_cop_avg 3 0%Z).
  vm_compute; reflexivity.
Defined.

Lemma noise_scale_is_sigma_witness :
  exists (temp cop expected : list Q) (s' : Z),
    @generate_synthetic_scatter_data instance
      TREND_LINE_DATA_temperature_c TREND_LINE_DATA_cop_avg 3 0%Z
    = Ok ((temp, cop, expected), s') /\
    exists (scale : list Q) (s1 : Z) (noise total : list Q),
      normal 0 scale 3 s1 = Ok (noise, s') /\
      length scale = length temp /\
      (forall (i : nat) (t : Q),
          nth_error temp i = Some t ->
          nth_error scale i = Some (0.2 + 0.1 * ((t + 20) / 30))) /\
      np_add expected noise = Ok total /\
      cop = np_maximum total 0.5.
Proof.
  do 4 eexists. split; [vm_compute; reflexivity|].
  eapply (@noise_scale_is_sigma instance
            TREND_LINE_DATA_temperature_c TREND_LINE_DATA_cop_avg 3 0%Z).
  vm_compute; reflexivity.
Defined.

Lemma generate_lengths_and_range_witness :
  exists (temp cop expected : list Q) (s' : Z) (lo hi : Q),
    @generate_synthetic_scatter_data instance
      TREND_LINE_DATA_temperature_c TREND_LINE_DATA_cop_avg 3 0%Z
    = Ok ((temp, cop, expected), s') /\
    length temp = 3%nat /\
    length cop = 3%nat /\
    ndarray_min TREND_LINE_DATA_temperature_c = Ok lo /\
    ndarray_max TREND_LINE_DATA_temperature_c = Ok hi /\
    Forall (fun t => lo <= t /\ t <= hi) temp.
Proof.
  apply (@generate_lengths_and_range instance lcg_numpy_laws
           TREND_LINE_DATA_temperature_c TREND_LINE_DATA_cop_avg 3 0%Z).
  - discriminate.
  - reflexivity.
  - repeat constructor; discriminate.
Defined.

Lemma expected_is_fitted_polynomial_witness :
  exists (temp cop expected : list Q) (s' : Z),
    @generate_synthetic_scatter_data instance
      TREND_LINE_DATA_temperature_c TREND_LINE_DATA_cop_avg 3 0%Z
    = Ok ((temp, cop, expected), s') /\
    exists coeffs : list Q,
      polyfit TREND_LINE_DATA_temperature_c TREND_LINE_DATA_cop_avg 3
      = Ok coeffs /\
      forall (i : nat) (t : Q),
        nth_error temp i = Some t ->
        nth_error expected i = Some (np_poly1d coeffs t).
Proof.
  do 4 eexists. split; [vm_compute; reflexivity|].
  edestruct (@expected_is_fitted_polynomial instance
               TREND_LINE_DATA_temperature_c TREND_LINE_DATA_cop_avg 3 0%Z)
    as (coeffs & fit & _ & elems & _).
  - vm_compute; reflexivity.
  - exists coeffs. split; [exact fit|exact elems].
Defined.

(** C7, as stated, fails.  The two seeds 1 and 2 give the generator
    different states, from which it draws different values; the outputs of
    [generate_synthetic_scatter_data] after seeding with 1 and after
    seeding with 2 are nevertheless the same, and no two seeds give
    different outputs. *)
Lemma different_seeds_same_output :
  let generate :=
    @generate_synthetic_scatter_data instance
      TREND_LINE_DATA_temperature_c TREND_LINE_DATA_cop_avg 3 in
  seed 1 <> seed 2 /\
  uniform 0 1 3 (seed 1) <> uniform 0 1 3 (seed 2) /\
  generate (seed 1) = generate (seed 2) /\
  ~ (exists seed1 seed2 : Z, generate (seed seed1) <> generate (seed seed2)).
Proof.
  intro generate.
  split; [discriminate|].
  split; [vm_compute; discriminate|].
  split; [reflexivity|].
  intros (seed1 & seed2 & ne). apply ne.
  apply (@generate_ignores_state instance).
Qed.

(** The fit of the trend data of the script: the cubic coefficient is 0. *)
Lemma polyfit_trend_line :
  polyfit TREND_LINE_DATA_temperature_c TREND_LINE_DATA_cop_avg 3
  = Ok [0; 1 # 840; 317 # 4200; 199 # 70].
Proof.
  vm_compute. reflexivity.
Qed.

(** It is the least-squares fit: the residuals of the fitted polynomial at
    the trend points are orthogonal to the powers 3, 2, 1 and 0 of the
    temperatures (the normal equations). *)
Lemma polyfit_trend_line_normal_equations :
  let p := np_poly1d [0; 1 # 840; 317 # 4200; 199 # 70] in
  let residual :=
    zip_with Qminus (map p TREND_LINE_DATA_temperature_c)
      TREND_LINE_DATA_cop_avg in
  Forall (fun k =>
            dot (map (fun x => x ^ Z.of_nat k) TREND_LINE_DATA_temperature_c)
              residual == 0)
         [3; 2; 1; 0]%nat.
Proof.
  repeat constructor.
Qed.

End runs.

(** ** cop_data.py: when the generator is seeded *)

Section cop_data_reseeding.
Import cop_data cop_data_state.
Context {np : Numpy}.

(** The model that keeps the state of a raising call refines the one that
    forgets it. *)
Lemma generate_forget (trend_x trend_y : list Q) (num_points : nat)
  (s : rng_state) :
  forget (cop_data_state.generate_synthetic_scatter_data
            trend_x trend_y num_points s)
  = cop_data.generate_synthetic_scatter_data trend_x trend_y num_points s.
Proof.
  unfold cop_data_state.generate_synthetic_scatter_data,
    cop_data.generate_synthetic_scatter_data,
    bind_s, lift_s, call_s, put_s, ret_s, bind, lift, put, ret.
  destruct (np_polyfit trend_x trend_y 3); [|reflexivity].
  destruct (ndarray_min trend_x); [|reflexivity].
  destruct (ndarray_max trend_x); [|reflexivity].
  destruct (np_random_uniform _ _ _ _) as [[temp s1]|]; [|reflexivity].
  destruct (np_random_normal _ _ _ _) as [[noise s2]|]; [|reflexivity].
  destruct (np_add _ _); reflexivity.
Qed.

Lemma generate_state_fit_raises (trend_x trend_y : list Q)
  (num_points : nat) (e : exn) (s : rng_state) :
  np_polyfit trend_x trend_y 3 = Raise e ->
  cop_data_state.generate_synthetic_scatter_data trend_x trend_y num_points s
  = Raises e (Some s).
Proof.
  intro fit.
  unfold cop_data_state.generate_synthetic_scatter_data, bind_s, lift_s.
  now rewrite fit.
Qed.

Lemma generate_state_fit_returns (trend_x trend_y : list Q)
  (num_points : nat) (coeffs : list Q) (s1 s2 : rng_state) :
  np_polyfit trend_x trend_y 3 = Ok coeffs ->
  cop_data_state.generate_synthetic_scatter_data trend_x trend_y num_points s1
  = cop_data_state.generate_synthetic_scatter_data
      trend_x trend_y num_points s2.
Proof.
  intro fit.
  unfold cop_data_state.generate_synthetic_scatter_data,
    bind_s, lift_s, put_s.
  now rewrite fit.
Qed.

(** C9, as amended.  The generator has no seed argument.  When
    [np.polyfit] returns, the call seeds numpy's generator with 42 before
    it draws: what it returns, or raises, and the state it leaves are the
    same whatever the state before the call.  When [np.polyfit] raises,
    the call raises the same and leaves the generator as it was.  In both
    cases two calls with equal arguments give the same output, whatever
    the states before them.  On well-formed trend data the call returns,
    and the temperatures it returns are the first draw of the generator
    seeded with 42. *)
Theorem generate_reseeds_after_fit {laws : NumpyLaws np}
  (trend_x trend_y : list Q) (num_points : nat) :
  let generate :=
    cop_data_state.generate_synthetic_scatter_data
      trend_x trend_y num_points in
  (forall (coeffs : list Q) (s1 s2 : rng_state),
      np_polyfit trend_x trend_y 3 = Ok coeffs ->
      generate s1 = generate s2) /\
  (forall (e : exn) (s : rng_state),
      np_polyfit trend_x trend_y 3 = Raise e ->
      generate s = Raises e (Some s)) /\
  (forall s1 s2 : rng_state, forget (generate s1) = forget (generate s2)) /\
  (trend_x <> [] ->
   length trend_x = length trend_y ->
   Forall (fun x => -80 <= x) trend_x ->
   forall s : rng_state,
   exists (temp cop expected : list Q) (s' s1 : rng_state) (lo hi : Q),
     generate s = Returns (temp, cop, expected) s' /\
     ndarray_min trend_x = Ok lo /\
     ndarray_max trend_x = Ok hi /\
     np_random_uniform lo hi num_points (np_random_seed 42)
     = Ok (temp, s1)).
Proof.
  intro generate. unfold generate.
  split; [|split; [|split]].
  - intros coeffs s1 s2 fit.
    exact (generate_state_fit_returns _ _ _ coeffs s1 s2 fit).
  - intros e s fit. now apply generate_state_fit_raises.
  - intros s1 s2. rewrite !generate_forget.
    apply generate_ignores_state.
  - intros nonempty len above s.
    destruct (polyfit_returns trend_x trend_y 3 nonempty len)
      as (coeffs & fit & _).
    destruct (ndarray_min_max trend_x nonempty) as (lo & hi & Elo & Ehi & le).
    destruct (uniform_returns lo hi num_points (np_random_seed 42) le)
      as (temp & s1 & Eu & len_temp & range).
    assert (Forall (fun x => 0 <= x) (map sigma temp)) as nonneg.
    { apply Forall_map. revert range. apply Forall_impl.
      intros t [lo_t _]. apply sigma_nonneg.
      pose proof (ndarray_min_glb (-80) trend_x lo above Elo). lra. }
    destruct (normal_returns 0 (map sigma temp) num_points s1)
      as (noise & s' & En & len_noise);
      [now rewrite length_map|exact nonneg|].
    destruct (np_add_same_length (map (np_poly1d coeffs) temp) noise)
      as (total & Ea & _);
      [rewrite length_map; congruence|].
    exists temp, (np_maximum total 0.5), (map (np_poly1d coeffs) temp),
      s', s1, lo, hi.
    split; [|now repeat split].
    unfold cop_data_state.generate_synthetic_scatter_data,
      bind_s, lift_s, call_s, put_s, ret_s.
    rewrite fit, Elo, Ehi, Eu.
    change (map (fun t => 0.2 + 0.1 * ((t + 20) / 30)) temp)
      with (map sigma temp).
    now rewrite En, Ea.
Qed.

End cop_data_reseeding.

Section cop_data_reseeding_runs.
Import cop_data cop_data_state lcg_numpy.

(** A run from the state of seed 1: the temperatures are the draw from the
    state of seed 42, which the draw from the state of seed 1 is not. *)
Lemma generate_reseeds_after_fit_witness :
  exists (temp cop expected : list Q) (s' s1 : Z),
    @cop_data_state.generate_synthetic_scatter_data instance
      TREND_LINE_DATA_temperature_c TREND_LINE_DATA_cop_avg 3 (seed 1)
    = Returns (temp, cop, expected) s' /\
    uniform (-20) 10 3 (seed 42) = Ok (temp, s1) /\
    uniform (-20) 10 3 (seed 1) <> Ok (temp, s1).
Proof.
  destruct (@generate_reseeds_after_fit instance lcg_numpy_laws
              TREND_LINE_DATA_temperature_c TREND_LINE_DATA_cop_avg 3)
    as (_ & _ & _ & returns).
  destruct (returns ltac:(discriminate) eq_refl
              ltac:(repeat constructor; discriminate) (seed 1))
    as (temp & cop & expected & s' & s1 & lo & hi & run & Elo & Ehi & Eu).
  injection Elo as <-. injection Ehi as <-.
  exists temp, cop, expected, s', s1.
  split; [exact run|]. split; [exact Eu|].
  intro Eu1.
  assert (uniform (-20) 10 3 (seed 42) = uniform (-20) 10 3 (seed 1)) as E
      by (rewrite Eu1; exact Eu).
  vm_compute in E. discriminate E.
Defined.

(** C9, as stated, fails: the call does not seed the generator on every
    call.  With an empty [trend_x] the fit raises, the call raises the
    same and the generator is left in the state of seed 1 it was in, not
    in the state of seed 42. *)
Lemma generate_not_reseeded_when_fit_raises :
  @cop_data_state.generate_synthetic_scatter_data instance [] [] 3 (seed 1)
  = Raises TypeError (Some (seed 1)) /\
  seed 1 <> seed 42.
Proof.
  split; [reflexivity|discriminate].
Qed.

End cop_data_reseeding_runs.

(** * Further properties of the code *)

(** ** carnot_cop.py: the two paths of [carnot_cop_heating] *)

Section carnot_cop_paths.
Import carnot_cop.

Lemma carnot_cop_heating_float_invalid (T_hot_K t : Q) :
  T_hot_K - t < 0 ->
  carnot_cop_heating T_hot_K (PyFloat t) = Ok (nd_0d NaN).
Proof.
  intro lt. unfold carnot_cop_heating, py_truediv; simpl.
  rewrite Qeq_bool_false by lra. simpl.
  assert (Qle_bool (T_hot_K - t) 0 = true) as ->
      by (apply Qle_bool_iff; lra).
  reflexivity.
Qed.

(** X1. On finite Python floats the call has three outcomes, each met on
    exactly one side of [T_hot_K = T_cold_K]: it raises
    [ZeroDivisionError] when the two are equal, returns the invalid marker
    when the cold side is the hotter, and returns a finite value when it is
    the colder. *)
Theorem carnot_cop_heating_float_cases (T_hot_K t : Q) :
  (T_hot_K == t <->
   carnot_cop_heating T_hot_K (PyFloat t) = Raise ZeroDivisionError) /\
  (T_hot_K < t <->
   carnot_cop_heating T_hot_K (PyFloat t) = Ok (nd_0d NaN)) /\
  (t < T_hot_K <->
   exists c : Q, carnot_cop_heating T_hot_K (PyFloat t) = Ok (nd_0d (Fin c))).
Proof.
  destruct (Q_dec T_hot_K t) as [[lt|gt]|eq].
  - rewrite (carnot_cop_heating_float_invalid T_hot_K t) by lra.
    repeat split; try (intro; lra); try discriminate; try tauto.
    intros (c & H). discriminate H.
  - rewrite (carnot_cop_heating_float T_hot_K t) by lra.
    repeat split; try (intro; lra); try discriminate; try tauto.
    intros _. now eexists.
  - rewrite (carnot_cop_heating_float_zero T_hot_K t) by lra.
    repeat split; try (intro; lra); try discriminate; try tauto.
    intros (c & H). discriminate H.
Qed.

(** X2. The Python-float path and the array path agree wherever the two
    temperatures differ; where they are equal the first raises and the
    second returns the invalid marker. *)
Theorem carnot_cop_heating_paths (T_hot_K t : Q) :
  (~ T_hot_K == t ->
   carnot_cop_heating T_hot_K (PyFloat t)
   = carnot_cop_heating T_hot_K (NdArray (nd_0d t))) /\
  (T_hot_K == t ->
   carnot_cop_heating T_hot_K (PyFloat t) = Raise ZeroDivisionError /\
   carnot_cop_heating T_hot_K (NdArray (nd_0d t)) = Ok (nd_0d NaN)).
Proof.
  rewrite carnot_cop_heating_array.
  change (nd_map (cop_element T_hot_K) (nd_0d t))
    with (nd_0d (cop_element T_hot_K t)).
  split.
  - intro ne. destruct (Q_dec T_hot_K t) as [[lt|gt]|eq]; [| |contradiction].
    + rewrite (carnot_cop_heating_float_invalid T_hot_K t) by lra.
      rewrite cop_element_invalid by lra. reflexivity.
    + rewrite (carnot_cop_heating_float T_hot_K t) by lra.
      rewrite cop_element_valid by lra. reflexivity.
  - intro eq. split.
    + apply carnot_cop_heating_float_zero. lra.
    + rewrite cop_element_invalid by lra. reflexivity.
Qed.

(** X3. A cold temperature that is not a positive absolute temperature
    is not reported: for a positive [T_hot_K] above [T_cold_K] the call
    returns a finite value that is not negative, at least 1 when
    [T_cold_K] is 0 or more, and at most 1 when [T_cold_K] is 0 or less. *)
Theorem carnot_cop_heating_against_one (T_hot_K t : Q) :
  0 < T_hot_K -> t < T_hot_K ->
  exists c : Q,
    carnot_cop_heating T_hot_K (PyFloat t) = Ok (nd_0d (Fin c)) /\
    0 <= c /\ (0 <= t -> 1 <= c) /\ (t <= 0 -> c <= 1).
Proof.
  intros hot lt. exists (T_hot_K / (T_hot_K - t)).
  split; [apply carnot_cop_heating_float; lra|].
  split; [apply Qlt_le_weak, cop_positive; lra|].
  assert (T_hot_K / (T_hot_K - t) * (T_hot_K - t) == T_hot_K) as E
      by (field; lra).
  set (c := T_hot_K / (T_hot_K - t)) in *.
  split; intro H; nra.
Qed.

Lemma carnot_cop_heating_against_one_witness :
  exists c : Q,
    carnot_cop_heating 308.15 (PyFloat (-35)) = Ok (nd_0d (Fin c)) /\
    0 <= c /\ (0 <= -35 -> 1 <= c) /\ (-35 <= 0 -> c <= 1).
Proof.
  apply (carnot_cop_heating_against_one 308.15 (-35)); reflexivity.
Defined.

End carnot_cop_paths.

(** ** carnot_cop.py: the curves of the script *)

Section carnot_cop_curves.
Import carnot_cop.

Lemma celsius_to_kelvin_float (c k : Q) :
  celsius_to_kelvin (PyFloat c) = PyFloat k -> k = c + 273.15.
Proof.
  intro H. now injection H.
Qed.

Lemma celsius_to_kelvin_array (a k : ndarray Q) :
  celsius_to_kelvin (NdArray a) = NdArray k ->
  k = nd_map (fun c => c + 273.15) a.
Proof.
  intro H. now injection H.
Qed.

(** X4. The script's composition, on an array of ambient temperatures
    of any shape: for a target and ambient temperatures in Celsius, both
    converted by [celsius_to_kelvin], the call returns an array of the
    shape of the ambient one, and its element is the invalid marker
    wherever the ambient temperature is the target or more: an element
    that is a value belongs to an ambient temperature below the target. *)
Theorem carnot_cop_heating_of_celsius (T_hot_C T_hot_K : Q)
  (T_ambient_C T_ambient_K : ndarray Q) :
  celsius_to_kelvin (PyFloat T_hot_C) = PyFloat T_hot_K ->
  celsius_to_kelvin (NdArray T_ambient_C) = NdArray T_ambient_K ->
  exists cop : ndarray npfloat,
    carnot_cop_heating T_hot_K (NdArray T_ambient_K) = Ok cop /\
    nd_shape cop = nd_shape T_ambient_C /\
    length (nd_data cop) = length (nd_data T_ambient_C) /\
    forall (i : nat) (c : Q),
      nth_error (nd_data T_ambient_C) i = Some c ->
      (T_hot_C <= c -> nth_error (nd_data cop) i = Some NaN) /\
      (forall v : Q,
          nth_error (nd_data cop) i = Some (Fin v) -> c < T_hot_C).
Proof.
  intros hot ambient.
  apply celsius_to_kelvin_float in hot as ->.
  apply celsius_to_kelvin_array in ambient as ->.
  rewrite carnot_cop_heating_array, nd_map_map.
  eexists. split; [reflexivity|].
  split; [reflexivity|]. split; [apply length_map|].
  intros i c Hi. simpl. rewrite nth_error_map, Hi. simpl. split.
  - intro le. rewrite cop_element_invalid by lra. reflexivity.
  - intros v Hv. destruct (Qlt_le_dec c T_hot_C) as [lt|le]; [exact lt|].
    rewrite cop_element_invalid in Hv by lra. discriminate Hv.
Qed.

Lemma carnot_cop_heating_of_celsius_witness :
  exists cop : ndarray npfloat,
    carnot_cop_heating (35 + 273.15)
      (NdArray (nd_map (fun c => c + 273.15) (nd_1d [-35; 15; 35; 40])))
    = Ok cop /\
    nd_shape cop = [4%nat] /\
    nth_error (nd_data cop) 2 = Some NaN /\
    nth_error (nd_data cop) 3 = Some NaN.
Proof.
  destruct (carnot_cop_heating_of_celsius T_target_1_C (35 + 273.15)
              (nd_1d [-35; 15; 35; 40])
              (nd_map (fun c => c + 273.15) (nd_1d [-35; 15; 35; 40]))
              eq_refl eq_refl)
    as (cop & run & shape & _ & elems).
  exists cop. split; [exact run|]. split; [exact shape|]. split.
  - apply (elems 2%nat 35 eq_refl). discriminate.
  - apply (elems 3%nat 40 eq_refl). discriminate.
Defined.

(** X5. When every cold temperature of an array, of any shape, is
    positive and below [T_hot_K], the curve has no invalid marker: it has
    as many elements as the array and each is a finite value that is at
    least 1. *)
Theorem carnot_cop_curve_valid (T_hot_K : Q) (T_cold_K : ndarray Q) :
  Forall (fun t => 0 < t /\ t < T_hot_K) (nd_data T_cold_K) ->
  exists cop : ndarray npfloat,
    carnot_cop_heating T_hot_K (NdArray T_cold_K) = Ok cop /\
    nd_shape cop = nd_shape T_cold_K /\
    length (nd_data cop) = length (nd_data T_cold_K) /\
    Forall (fun x => exists v : Q, x = Fin v /\ 1 <= v) (nd_data cop).
Proof.
  intro range.
  rewrite carnot_cop_heating_array.
  eexists. split; [reflexivity|]. split; [reflexivity|].
  split; [apply length_map|].
  simpl. apply Forall_map. revert range. apply Forall_impl.
  intros t [pos below]. rewrite cop_element_valid by lra.
  eexists. split; [reflexivity|]. apply Qlt_le_weak, cop_above_one; lra.
Qed.

Lemma carnot_cop_curve_valid_witness :
  exists cop : ndarray npfloat,
    carnot_cop_heating 338.15 (NdArray (nd_1d [238.15; 273.15; 288.15]))
    = Ok cop /\
    nd_shape cop = [3%nat] /\
    length (nd_data cop) = 3%nat /\
    Forall (fun x => exists v : Q, x = Fin v /\ 1 <= v) (nd_data cop).
Proof.
  apply (carnot_cop_curve_valid 338.15 (nd_1d [238.15; 273.15; 288.15])).
  repeat constructor.
Defined.

End carnot_cop_curves.

(** ** carnot_cop.py: the console summary *)

Section carnot_cop_summary_properties.
Import carnot_cop carnot_cop_summary.

(** X7. For a finite Python number [T_cold_C], converted to [T_cold_K]
    by [celsius_to_kelvin], [print_cop_at_temp] prints the "Invalid" line
    exactly when [T_cold_K] is above [T_hot_K], prints the line of a
    finite COP exactly when it is below, and raises [ZeroDivisionError]
    exactly when the two are equal: at equality nothing is printed. *)
Theorem print_cop_at_temp_cases (T_cold_C T_cold_K T_hot_C T_hot_K : Q) :
  celsius_to_kelvin (PyFloat T_cold_C) = PyFloat T_cold_K ->
  (T_hot_K < T_cold_K <->
   print_cop_at_temp (PyFloat T_cold_C) T_hot_C T_hot_K
   = Ok (InvalidLine (PyFloat T_cold_C) T_hot_C)) /\
  (T_hot_K == T_cold_K <->
   print_cop_at_temp (PyFloat T_cold_C) T_hot_C T_hot_K
   = Raise ZeroDivisionError) /\
  (T_cold_K < T_hot_K <->
   exists c : Q,
     print_cop_at_temp (PyFloat T_cold_C) T_hot_C T_hot_K
     = Ok (CopLine (PyFloat T_cold_C) T_hot_C (Fin c))).
Proof.
  intro conv. unfold print_cop_at_temp. rewrite conv.
  destruct (Q_dec T_hot_K T_cold_K) as [[lt|gt]|eq].
  - rewrite carnot_cop_heating_float_invalid by lra. simpl.
    repeat split; try (intro; lra); try discriminate; try tauto.
    intros (c & H). discriminate H.
  - rewrite carnot_cop_heating_float by lra. simpl.
    repeat split; try (intro; lra); try discriminate; try tauto.
    intros _. now eexists.
  - rewrite carnot_cop_heating_float_zero by lra. simpl.
    repeat split; try (intro; lra); try discriminate; try tauto.
    intros (c & H). discriminate H.
Qed.

Lemma print_cop_at_temp_cases_witness :
  exists c : Q,
    print_cop_at_temp (PyFloat (-35)) 35 (35 + 273.15)
    = Ok (CopLine (PyFloat (-35)) 35 (Fin c)).
Proof.
  apply (print_cop_at_temp_cases (-35) (-35 + 273.15) 35 (35 + 273.15)
           eq_refl).
  reflexivity.
Defined.

(** X8. For an array [T_cold_C], [print_cop_at_temp] raises [ValueError]
    (from [.item()]) unless the array has exactly one element; with one
    element, converted to [T_cold_K] by [celsius_to_kelvin], it prints the
    "Invalid" line when [T_cold_K] is [T_hot_K] or more, equality
    included, and the line of a finite COP otherwise. *)
Theorem print_cop_at_temp_array (T_cold_C : ndarray Q) (T_hot_C T_hot_K : Q) :
  (length (nd_data T_cold_C) <> 1%nat ->
   print_cop_at_temp (NdArray T_cold_C) T_hot_C T_hot_K = Raise ValueError) /\
  (forall (T_cold_K : ndarray Q) (k : Q),
      celsius_to_kelvin (NdArray T_cold_C) = NdArray T_cold_K ->
      nd_data T_cold_K = [k] ->
      (T_hot_K <= k ->
       print_cop_at_temp (NdArray T_cold_C) T_hot_C T_hot_K
       = Ok (InvalidLine (NdArray T_cold_C) T_hot_C)) /\
      (k < T_hot_K ->
       exists c : Q,
         print_cop_at_temp (NdArray T_cold_C) T_hot_C T_hot_K
         = Ok (CopLine (NdArray T_cold_C) T_hot_C (Fin c)))).
Proof.
  unfold print_cop_at_temp. split.
  - intro size.
    change (celsius_to_kelvin (NdArray T_cold_C))
      with (NdArray (nd_map (fun c => c + 273.15) T_cold_C)).
    rewrite carnot_cop_heating_array, nd_map_map.
    unfold ndarray_item, nd_map; cbn [result_bind nd_data].
    destruct (nd_data T_cold_C) as [|c [|c' r]]; simpl;
      [reflexivity|now contradiction size|reflexivity].
  - intros T_cold_K k conv one. rewrite conv.
    rewrite carnot_cop_heating_array.
    unfold ndarray_item, nd_map; cbn [result_bind nd_data].
    rewrite one. cbn [map]. split.
    + intro le. rewrite cop_element_invalid by lra. reflexivity.
    + intro lt. rewrite cop_element_valid by lra. now eexists.
Qed.

End carnot_cop_summary_properties.

(** ** cop_data.py: edge cases and dependencies of the generator *)

Section cop_data_edges.
Import cop_data.
Context {np : Numpy}.

(** X9. With an empty [trend_x] the generator never returns: it raises what
    [np.polyfit] raises, and if [np.polyfit] returned it raises the
    [ValueError] of [trend_x.min()]. *)
Theorem generate_empty_trend_raises (trend_y : list Q) (num_points : nat)
  (s : rng_state) :
  generate_synthetic_scatter_data [] trend_y num_points s
  = match np_polyfit [] trend_y 3 with
    | Ok _ => Raise ValueError
    | Raise e => Raise e
    end.
Proof.
  unfold generate_synthetic_scatter_data, bind, lift, put.
  destruct (np_polyfit [] trend_y 3); reflexivity.
Qed.

Lemma length_zero_nil {A : Type} (l : list A) : length l = 0%nat -> l = [].
Proof.
  destruct l; [reflexivity|discriminate].
Qed.

(** X10. With [num_points = 0] and trend data that is not empty and has a COP
    for each temperature, the generator returns three empty sequences,
    whatever the trend temperatures are. *)
Theorem generate_zero_points {laws : NumpyLaws np}
  (trend_x trend_y : list Q) (s : rng_state) :
  trend_x <> [] ->
  length trend_x = length trend_y ->
  exists s' : rng_state,
    generate_synthetic_scatter_data trend_x trend_y 0 s = Ok (([], [], []), s').
Proof.
  intros nonempty len.
  destruct (polyfit_returns trend_x trend_y 3 nonempty len)
    as (coeffs & fit & _).
  destruct (ndarray_min_max trend_x nonempty) as (lo & hi & Elo & Ehi & le).
  destruct (uniform_returns lo hi 0 (np_random_seed 42) le)
    as (temp & s1 & Eu & len_temp & _).
  apply length_zero_nil in len_temp. subst temp.
  destruct (normal_returns 0 [] 0 s1 eq_refl (Forall_nil _))
    as (noise & s' & En & len_noise).
  apply length_zero_nil in len_noise. subst noise.
  exists s'.
  unfold generate_synthetic_scatter_data, bind, lift, put, ret.
  rewrite fit, Elo, Ehi, Eu. simpl. now rewrite En.
Qed.

(** X11. The temperatures drawn, and the generator state the call leaves, depend
    on the trend data only through the least and the greatest trend
    temperature: two calls that return, for trend data with the same
    extremes and the same [num_points], return the same temperatures and
    leave the same state, whatever the COP values of the trend. *)
Theorem synthetic_temp_depends_on_range (trend_x trend_y trend_x' trend_y' : list Q)
  (num_points : nat) (s1 s2 s1' s2' : rng_state)
  (temp cop expected temp' cop' expected' : list Q) :
  generate_synthetic_scatter_data trend_x trend_y num_points s1
  = Ok ((temp, cop, expected), s1') ->
  generate_synthetic_scatter_data trend_x' trend_y' num_points s2
  = Ok ((temp', cop', expected'), s2') ->
  ndarray_min trend_x = ndarray_min trend_x' ->
  ndarray_max trend_x = ndarray_max trend_x' ->
  temp = temp' /\ s1' = s2'.
Proof.
  intros run run' same_min same_max.
  apply generate_inv in run
    as (coeffs & lo & hi & t1 & noise & total
        & _ & Elo & Ehi & Eu & En & _).
  apply generate_inv in run'
    as (coeffs' & lo' & hi' & t1' & noise' & total'
        & _ & Elo' & Ehi' & Eu' & En' & _).
  assert (lo' = lo) as -> by congruence.
  assert (hi' = hi) as -> by congruence.
  rewrite Eu in Eu'. injection Eu' as <- <-.
  rewrite En in En'. injection En' as _ <-.
  now split.
Qed.

(** X12. In a call that returns, every temperature drawn lies between the
    extremes of [trend_x], and the noise scale at it between the scales at
    the two extremes. *)
Theorem noise_scale_range {laws : NumpyLaws np}
  (trend_x trend_y : list Q) (num_points : nat) (s s' : rng_state)
  (temp cop expected : list Q) (lo hi : Q) :
  generate_synthetic_scatter_data trend_x trend_y num_points s
  = Ok ((temp, cop, expected), s') ->
  ndarray_min trend_x = Ok lo ->
  ndarray_max trend_x = Ok hi ->
  Forall (fun t => (lo <= t /\ t <= hi) /\
                   0.2 + 0.1 * ((lo + 20) / 30)
                   <= 0.2 + 0.1 * ((t + 20) / 30) /\
                   0.2 + 0.1 * ((t + 20) / 30)
                   <= 0.2 + 0.1 * ((hi + 20) / 30))
         temp.
Proof.
  intros run Elo Ehi.
  apply generate_inv in run
    as (coeffs & lo' & hi' & s1 & noise & total
        & _ & Elo' & Ehi' & Eu & _).
  assert (lo' = lo) as -> by congruence.
  assert (hi' = hi) as -> by congruence.
  assert (lo <= hi) as le.
  { destruct trend_x as [|x r]; [discriminate|].
    destruct (ndarray_min_max (x :: r)) as (l & h & El & Eh & le);
      [discriminate|].
    congruence. }
  destruct (uniform_returns lo hi num_points (np_random_seed 42) le)
    as (temp0 & s0 & Eu0 & _ & range).
  rewrite Eu in Eu0. injection Eu0 as <- <-.
  revert range. apply Forall_impl. intros t [lo_t t_hi].
  split; [now split|].
  split; [apply (sigma_monotone lo t lo_t)|apply (sigma_monotone t hi t_hi)].
Qed.

End cop_data_edges.

Section cop_data_edge_runs.
Import cop_data lcg_numpy.

Lemma generate_zero_points_witness :
  exists s' : Z,
    @generate_synthetic_scatter_data instance
      TREND_LINE_DATA_temperature_c TREND_LINE_DATA_cop_avg 0 7%Z
    = Ok (([], [], []), s').
Proof.
  apply (@generate_zero_points instance lcg_numpy_laws
           TREND_LINE_DATA_temperature_c TREND_LINE_DATA_cop_avg 7%Z).
  - discriminate.
  - reflexivity.
Defined.

Lemma synthetic_temp_depends_on_range_witness :
  exists (temp cop expected temp' cop' expected' : list Q) (s1' s2' : Z),
    @generate_synthetic_scatter_data instance
      TREND_LINE_DATA_temperature_c TREND_LINE_DATA_cop_avg 2 0%Z
    = Ok ((temp, cop, expected), s1') /\
    @generate_synthetic_scatter_data instance [10; -20] [5; 1] 2 9%Z
    = Ok ((temp', cop', expected'), s2') /\
    cop <> cop' /\ temp = temp' /\ s1' = s2'.
Proof.
  do 8 eexists.
  split; [vm_compute; reflexivity|].
  split; [vm_compute; reflexivity|].
  split; [discriminate|].
  eapply (@synthetic_temp_depends_on_range instance
            TREND_LINE_DATA_temperature_c TREND_LINE_DATA_cop_avg
            [10; -20] [5; 1] 2 0%Z 9%Z).
  - vm_compute; reflexivity.
  - vm_compute; reflexivity.
  - reflexivity.
  - reflexivity.
Defined.

Lemma noise_scale_range_witness :
  exists (temp cop expected : list Q) (s' : Z),
    @generate_synthetic_scatter_data instance
      TREND_LINE_DATA_temperature_c TREND_LINE_DATA_cop_avg 3 0%Z
    = Ok ((temp, cop, expected), s') /\
    Forall (fun t => (-20 <= t /\ t <= 10) /\
                     0.2 + 0.1 * ((-20 + 20) / 30)
                     <= 0.2 + 0.1 * ((t + 20) / 30) /\
                     0.2 + 0.1 * ((t + 20) / 30)
                     <= 0.2 + 0.1 * ((10 + 20) / 30))
           temp.
Proof.
  do 4 eexists. split; [vm_compute; reflexivity|].
  eapply (@noise_scale_range instance lcg_numpy_laws
            TREND_LINE_DATA_temperature_c TREND_LINE_DATA_cop_avg 3 0%Z).
  - vm_compute; reflexivity.
  - reflexivity.
  - reflexivity.
Defined.

End cop_data_edge_runs.
